(** * webpack.config.js: the build configuration resolver

    A shallow embedding of [src/webpack.config.js].  The file exports one
    function, [(env, argv) => ({ ... })], which assembles a webpack
    configuration object from module-level constants and from four
    selections gated by [isProduction(env)].

    JavaScript values are embedded as a small tree type; object literals
    keep their properties in source order.  What the file obtains from Node
    and from the packages it requires (the process environment, [__dirname],
    [path.join], [glob.sync], [MiniCssExtractPlugin.loader], [Autoprefixer])
    is collected in a record of host-supplied values. *)

From Stdlib Require Import Ascii.
From stdpp Require Import base strings list gmap.

Open Scope string_scope.

(** ** JavaScript values *)

(** The four plugin constructors the file instantiates with [new]. *)
Inductive plugin_class : Set :=
  | HtmlWebpackPlugin
  | MiniCssExtractPlugin
  | OptimizeCSSAssetsPlugin
  | PurgecssPlugin.

#[global] Instance plugin_class_eq_dec : EqDecision plugin_class.
Proof. solve_decision. Defined.

(** [VRegExp] holds the source text of a regular-expression literal,
    [VNew c args] is the instance built by [new c(args)], and [VThunk] is
    an arrow function without parameters, [() => body]. *)
#[warnings="-register-all"] Inductive value : Type :=
  | VUndefined
  | VNull
  | VBool (b : bool)
  | VNum (n : Z)
  | VStr (s : string)
  | VRegExp (source : string)
  | VArr (items : list value)
  | VObj (props : list (string * value))
  | VNew (c : plugin_class) (args : list value)
  | VThunk (body : unit -> value).

(** [v === 'lit'] for a string literal: strict equality never coerces, so
    it holds exactly when [v] is that primitive string. *)
Definition strict_eq_string (v : value) (lit : string) : bool :=
  match v with
  | VStr s => String.eqb s lit
  | _ => false
  end.

(** Own property [k] of an object; the literals of the file never repeat a
    property name. *)
Fixpoint assoc (k : string) (props : list (string * value)) : option value :=
  match props with
  | [] => None
  | (k', v) :: rest => if String.eqb k k' then Some v else assoc k rest
  end.

Definition own (k : string) (v : value) : option value :=
  match v with
  | VObj props => assoc k props
  | _ => None
  end.

(** Property read [o.k] on an object: a missing property reads as
    [undefined]. *)
Definition get (k : string) (o : value) : value :=
  default VUndefined (own k o).

(** The items of an array. *)
Definition elements (v : value) : list value :=
  match v with
  | VArr items => items
  | _ => []
  end.

(** Access paths such as [cfg.module.rules[1].use[0].loader]. *)
Inductive selector : Set :=
  | Key (k : string)
  | Idx (i : nat).

Definition select1 (s : selector) (v : value) : option value :=
  match s with
  | Key k => own k v
  | Idx i => elements v !! i
  end.

Fixpoint select (path : list selector) (v : value) : option value :=
  match path with
  | [] => Some v
  | s :: rest => select1 s v ≫= select rest
  end.

(** [v instanceof c]. *)
Definition instanceof (v : value) (c : plugin_class) : bool :=
  match v with
  | VNew c' _ => bool_decide (c' = c)
  | _ => false
  end.

(** An object with at least one own property. *)
Definition populated (v : value) : bool :=
  match v with
  | VObj (_ :: _) => true
  | _ => false
  end.

(** ** What the host supplies

    The definitions below describe the module once its top-level code has
    run: [process_env] is [process.env] as line 29 reads it (after
    [require('dotenv').config()]), and [glob_sync] gives the array that
    [glob.sync] returned. *)
Record Host : Type := {
  process_env : gmap string string;
  __dirname : string;
  join : list string -> string;
  glob_sync : string -> value -> list string;
  MiniCssExtractPlugin_loader : value;
  Autoprefixer : list value -> value
}.

(** Reading a variable of [process.env]: a string, or [undefined]. *)
Definition env_var (h : Host) (name : string) : value :=
  match process_env h !! name with
  | Some s => VStr s
  | None => VUndefined
  end.

Section WebpackConfig.

Variable h : Host.

(** [const { WDS_HOST, WDS_PORT } = process.env] *)
Definition WDS_HOST : value := env_var h "WDS_HOST".
Definition WDS_PORT : value := env_var h "WDS_PORT".

(** [const isProduction = env => env === 'production'] *)
Definition isProduction (env : value) : bool :=
  strict_eq_string env "production".

Definition entry : value :=
  VObj [("index", VStr "./src/index.js")].

Definition output : value :=
  VObj [("filename", VStr "bundle.js");
        ("path", VStr (join h [__dirname h; "dist"]))].

Definition webpackModule (env : value) : value :=
  VObj [("rules", VArr [
    VObj [("test", VRegExp "\.m?jsx?$");
          ("exclude", VArr [VRegExp "(node_modules)"]);
          ("use", VArr [
            VObj [("loader", VStr "babel-loader");
                  ("options", VObj [("presets", VArr [VStr "@babel/preset-env"])])]])];
    VObj [("test", VArr [VRegExp "\.s?css$"; VRegExp "\.sass$"]);
          ("exclude", VArr [VRegExp "node_modules"]);
          ("use", VArr [
            VObj [("loader", if isProduction env
                             then MiniCssExtractPlugin_loader h
                             else VStr "style-loader");
                  ("options", VObj [("sourceMap", if isProduction env
                                                  then VBool false
                                                  else VBool true)])];
            VObj [("loader", VStr "css-loader");
                  ("options", VObj [("sourceMap", if isProduction env
                                                  then VBool false
                                                  else VBool true)])];
            VObj [("loader", VStr "postcss-loader");
                  ("options", VObj [("plugins",
                                     VThunk (fun _ => VArr [Autoprefixer h []]))])];
            VObj [("loader", VStr "sass-loader");
                  ("options", VObj [("sourceMap", if isProduction env
                                                  then VBool false
                                                  else VBool true)])]])]])].

Definition plugins : value :=
  VArr [
    VNew HtmlWebpackPlugin
      [VObj [("title", VStr "Webpack Demo");
             ("template", VStr "src/templates/index.html")]];
    VNew MiniCssExtractPlugin
      [VObj [("filename", VStr "[name].css")]];
    VNew PurgecssPlugin
      [VObj [("paths",
              VArr (VStr <$> glob_sync h (join h [__dirname h; "src"] ++ "/**/*")
                                        (VObj [("nodir", VBool true)])))]]].

Definition optimize : value :=
  VObj [("minimizer", VArr [VNew OptimizeCSSAssetsPlugin [VObj []]])].

Definition devServer : value :=
  VObj [("host", WDS_HOST);
        ("port", WDS_PORT);
        ("open", VBool false);
        ("historyApiFallback", VBool true);
        ("overlay", VBool true);
        ("contentBase", VStr (join h [__dirname h; "dist"]))].

(** [module.exports = (env, argv) => ({ ... })] *)
Definition module_exports (env argv : value) : value :=
  VObj [("mode", env);
        ("entry", entry);
        ("output", output);
        ("plugins", plugins);
        ("module", webpackModule env);
        ("optimization", if isProduction env then optimize else VObj []);
        ("devServer", if isProduction env then VObj [] else devServer);
        ("devtool", if isProduction env
                    then VBool false
                    else VStr "cheal-module-eval-source-map")].

End WebpackConfig.

(** ** Derived views of a configuration *)

(** The rule commented "Handle CSS, SASS, and SCSS files" is the second
    entry of [module.rules]; its [use] array is the CSS loader chain. *)
Definition css_chain : list selector :=
  [Key "module"; Key "rules"; Idx 1; Key "use"].

(** All loader steps of all rules, in order. *)
Definition loader_steps (cfg : value) : list value :=
  r ← elements (get "rules" (get "module" cfg));
  elements (get "use" r).

(** The [sourceMap] options found on the loader steps, in order. *)
Definition sourceMap_options (cfg : value) : list value :=
  omap (λ step, own "sourceMap" (get "options" step)) (loader_steps cfg).

(** The classes of the plugin instances in [cfg.plugins], in order. *)
Definition class_of (v : value) : option plugin_class :=
  match v with
  | VNew c _ => Some c
  | _ => None
  end.

Definition plugin_classes (cfg : value) : list (option plugin_class) :=
  class_of <$> elements (get "plugins" cfg).

(** Whether array [v] holds an instance of class [c]. *)
Definition has_instance (c : plugin_class) (v : value) : bool :=
  existsb (λ p, instanceof p c) (elements v).

(** The [devtool] values that webpack's documentation lists for the major
    version this configuration targets (webpack 4: its dev-server takes
    [overlay] and [contentBase]).  The list belongs to the bundler, not to
    this repository; it serves only to say that the string the file passes
    is none of them. *)
Definition documented_devtool_values : list string :=
  ["eval";
   "cheap-eval-source-map";
   "cheap-module-eval-source-map";
   "eval-source-map";
   "cheap-source-map";
   "cheap-module-source-map";
   "inline-cheap-source-map";
   "inline-cheap-module-source-map";
   "source-map";
   "inline-source-map";
   "hidden-source-map";
   "nosources-source-map"].

(** A host with nothing set in the environment, used for concrete runs. *)
Definition bare_host : Host := {|
  process_env := ∅;
  __dirname := "/app";
  join := fun parts => String.concat "/" parts;
  glob_sync := fun _ _ => ["/app/src/index.js"; "/app/src/templates/index.html"];
  MiniCssExtractPlugin_loader := VStr "/app/node_modules/mini-css-extract-plugin/dist/loader.js";
  Autoprefixer := fun _ => VObj []
|}.

(** A host whose environment sets both dev-server variables. *)
Definition lan_host : Host := {|
  process_env := list_to_map [("WDS_HOST", "0.0.0.0"); ("WDS_PORT", "3000")];
  __dirname := "/app";
  join := fun parts => String.concat "/" parts;
  glob_sync := fun _ _ => [];
  MiniCssExtractPlugin_loader := VStr "/app/node_modules/mini-css-extract-plugin/dist/loader.js";
  Autoprefixer := fun _ => VObj []
|}.

(** The same host with another process environment. *)
Definition with_env (h : Host) (e : gmap string string) : Host := {|
  process_env := e;
  __dirname := __dirname h;
  join := join h;
  glob_sync := glob_sync h;
  MiniCssExtractPlugin_loader := MiniCssExtractPlugin_loader h;
  Autoprefixer := Autoprefixer h
|}.

(** ** The regular-expression literals of the rules

    The five literals of [webpackModule] use only literal characters,
    escaped characters, [?], a group and [$].  None has a flag, so [$]
    holds at the end of the input only, and [test] searches for a match
    starting at any position. *)
Inductive regex : Set :=
  | Lit (c : Ascii.ascii)
  | Opt (r : regex)
  | Cat (r1 r2 : regex)
  | Grp (r : regex)
  | Eos
  | Eps.

Arguments Lit c%_char.

(** A sequence of pattern items, in source order. *)
Fixpoint cat (rs : list regex) : regex :=
  match rs with
  | [] => Eps
  | r :: rest => Cat r (cat rest)
  end.

(** A run of literal characters. *)
Fixpoint word (w : string) : regex :=
  match w with
  | EmptyString => Eps
  | String c w' => Cat (Lit c) (word w')
  end.

(** Line 56: [/\.m?jsx?$/] *)
Definition js_test : regex :=
  cat [Lit "."; Opt (Lit "m"); Lit "j"; Lit "s"; Opt (Lit "x"); Eos].

(** Line 57: [/(node_modules)/] *)
Definition js_exclude : regex := Grp (word "node_modules").

(** Line 64: [/\.s?css$/] and [/\.sass$/] *)
Definition css_test : regex :=
  cat [Lit "."; Opt (Lit "s"); Lit "c"; Lit "s"; Lit "s"; Eos].

Definition sass_test : regex :=
  cat [Lit "."; Lit "s"; Lit "a"; Lit "s"; Lit "s"; Eos].

(** Line 65: [/node_modules/] *)
Definition css_exclude : regex := word "node_modules".

(** The characters a pattern has to escape to mean themselves. *)
Definition syntax_character (c : Ascii.ascii) : bool :=
  existsb (Ascii.eqb c) (String.list_ascii_of_string "\^$.|?*+()[]{}/").

(** The source text of a pattern, as it stands between the slashes. *)
Fixpoint regex_source (r : regex) : string :=
  match r with
  | Lit c => if syntax_character c then String "\"%char (String c "") else String c ""
  | Opt r => regex_source r ++ "?"
  | Cat r1 r2 => regex_source r1 ++ regex_source r2
  | Grp r => "(" ++ regex_source r ++ ")"
  | Eos => "$"
  | Eps => ""
  end.

(** Backtracking matcher: [run r s] lists, in the order the matcher tries
    them, what is left of [s] after each way of matching [r] at its start. *)
Fixpoint run (r : regex) (s : string) : list string :=
  match r with
  | Lit c =>
      match s with
      | String c' s' => if Ascii.eqb c c' then [s'] else []
      | EmptyString => []
      end
  | Opt r => (run r s ++ [s])%list
  | Cat r1 r2 => s' ← run r1 s; run r2 s'
  | Grp r => run r s
  | Eos =>
      match s with
      | EmptyString => [EmptyString]
      | String _ _ => []
      end
  | Eps => [s]
  end.

Definition matches_at_start (r : regex) (s : string) : bool :=
  match run r s with
  | [] => false
  | _ :: _ => true
  end.

(** The suffixes of [s], longest first: the positions a search starts at. *)
Fixpoint tails (s : string) : list string :=
  s :: match s with
       | EmptyString => []
       | String _ s' => tails s'
       end.

(** [r.test(s)] *)
Definition regex_test (r : regex) (s : string) : bool :=
  existsb (matches_at_start r) (tails s).

(** ** The production predicate *)

Lemma isProduction_true (env : value) :
  isProduction env = true ↔ env = VStr "production".
Proof.
  unfold isProduction, strict_eq_string. split.
  - destruct env; try discriminate. intros E%String.eqb_eq. by subst.
  - intros ->. reflexivity.
Qed.

Lemma isProduction_false (env : value) :
  isProduction env = false ↔ env ≠ VStr "production".
Proof.
  rewrite <- isProduction_true. by destruct (isProduction env).
Qed.

Example isProduction_production : isProduction (VStr "production") = true.
Proof. reflexivity. Qed.

Example isProduction_staging : isProduction (VStr "staging") = false.
Proof. reflexivity. Qed.

(** Strict equality: no value other than the primitive string qualifies. *)
Example isProduction_undefined : isProduction VUndefined = false.
Proof. reflexivity. Qed.

Example isProduction_boxed :
  isProduction (VObj [("0", VStr "production")]) = false.
Proof. reflexivity. Qed.

(** ** Production selections *)

(** C1: for mode 'production' the returned configuration has an empty
    [devServer] object, an [optimization.minimizer] array of exactly one
    entry, and the first step of the CSS loader chain uses
    [MiniCssExtractPlugin.loader]; the style-injection branch is not the one
    taken, so the head is 'style-loader' only if the extraction loader itself
    is that string. *)
Theorem production_selections (h : Host) (argv : value) :
  let cfg := module_exports h (VStr "production") argv in
  own "devServer" cfg = Some (VObj []) ∧
  select [Key "optimization"; Key "minimizer"] cfg
    = Some (VArr [VNew OptimizeCSSAssetsPlugin [VObj []]]) ∧
  length (elements (get "minimizer" (get "optimization" cfg))) = 1 ∧
  select (css_chain ++ [Idx 0; Key "loader"]) cfg
    = Some (MiniCssExtractPlugin_loader h) ∧
  (MiniCssExtractPlugin_loader h ≠ VStr "style-loader" →
   select (css_chain ++ [Idx 0; Key "loader"]) cfg ≠ Some (VStr "style-loader")).
Proof.
  cbn. do 4 (split; [reflexivity|]).
  intros Hne [= Heq]. by apply Hne.
Qed.

Lemma production_selections_witness :
  MiniCssExtractPlugin_loader bare_host ≠ VStr "style-loader" ∧
  select (css_chain ++ [Idx 0; Key "loader"])
         (module_exports bare_host (VStr "production") (VObj []))
    ≠ Some (VStr "style-loader").
Proof.
  assert (Hne : MiniCssExtractPlugin_loader bare_host ≠ VStr "style-loader")
    by (intros [=]).
  split; [exact Hne|].
  exact (proj2 (proj2 (proj2 (proj2 (production_selections bare_host (VObj []))))) Hne).
Defined.

(** ** Development selections *)

(** C2: for mode 'development' the returned configuration has an empty
    [optimization] object, [devServer.historyApiFallback] is [true], and the
    first step of the CSS loader chain uses 'style-loader'. *)
Theorem development_selections (h : Host) (argv : value) :
  let cfg := module_exports h (VStr "development") argv in
  own "optimization" cfg = Some (VObj []) ∧
  select [Key "devServer"; Key "historyApiFallback"] cfg = Some (VBool true) ∧
  select (css_chain ++ [Idx 0; Key "loader"]) cfg = Some (VStr "style-loader").
Proof. cbn. repeat split. Qed.

(** ** Source-map options of the loader steps *)

Lemma loader_steps_count (h : Host) (env argv : value) :
  length (loader_steps (module_exports h env argv)) = 5.
Proof. reflexivity. Qed.

Lemma sourceMap_options_module_exports (h : Host) (env argv : value) :
  sourceMap_options (module_exports h env argv)
  = replicate 3 (VBool (negb (isProduction env))).
Proof.
  unfold sourceMap_options. cbn. by destruct (isProduction env).
Qed.

Lemma sourceMap_of_step (h : Host) (env argv step v : value) :
  step ∈ loader_steps (module_exports h env argv) →
  own "sourceMap" (get "options" step) = Some v →
  v = VBool (negb (isProduction env)).
Proof.
  intros Hin Hown.
  assert (Hv : v ∈ sourceMap_options (module_exports h env argv)).
  { unfold sourceMap_options. apply list_elem_of_omap. eauto. }
  rewrite sourceMap_options_module_exports in Hv.
  by apply elem_of_replicate in Hv as [-> _].
Qed.

(** C3: in the configuration returned for 'production', every loader step
    of the module rules that has a [sourceMap] option has it set to [false];
    in the one returned for 'development', every such step has it set to
    [true].  The steps concerned are the head of the CSS chain, [css-loader]
    and [sass-loader]: each of them carries the option, with that value, in
    either mode. *)
Theorem sourceMap_follows_mode (h : Host) (argv : value) :
  let prod := module_exports h (VStr "production") argv in
  let dev := module_exports h (VStr "development") argv in
  let flag cfg i := select (css_chain ++ [Idx i; Key "options"; Key "sourceMap"]) cfg in
  (sourceMap_options prod = [VBool false; VBool false; VBool false] ∧
   flag prod 0 = Some (VBool false) ∧
   flag prod 1 = Some (VBool false) ∧
   flag prod 3 = Some (VBool false) ∧
   ∀ step v,
     step ∈ loader_steps prod →
     own "sourceMap" (get "options" step) = Some v →
     v = VBool false) ∧
  (sourceMap_options dev = [VBool true; VBool true; VBool true] ∧
   flag dev 0 = Some (VBool true) ∧
   flag dev 1 = Some (VBool true) ∧
   flag dev 3 = Some (VBool true) ∧
   ∀ step v,
     step ∈ loader_steps dev →
     own "sourceMap" (get "options" step) = Some v →
     v = VBool true).
Proof.
  intros prod dev flag. subst prod dev flag.
  split; (split; [by rewrite sourceMap_options_module_exports|]);
    do 3 (split; [reflexivity|]);
    intros step v Hin Hown;
    apply (sourceMap_of_step _ _ _ _ _ Hin Hown).
Qed.

Lemma sourceMap_follows_mode_witness :
  let step b := VObj [("loader", VStr "css-loader");
                      ("options", VObj [("sourceMap", VBool b)])] in
  (step false ∈ loader_steps (module_exports bare_host (VStr "production") (VObj [])) ∧
   own "sourceMap" (get "options" (step false)) = Some (VBool false) ∧
   VBool false = VBool false) ∧
  (step true ∈ loader_steps (module_exports bare_host (VStr "development") (VObj [])) ∧
   own "sourceMap" (get "options" (step true)) = Some (VBool true) ∧
   VBool true = VBool true).
Proof.
  intros step.
  assert (Hp : step false ∈
            loader_steps (module_exports bare_host (VStr "production") (VObj []))).
  { cbn. do 2 apply list_elem_of_further. apply list_elem_of_here. }
  assert (Hd : step true ∈
            loader_steps (module_exports bare_host (VStr "development") (VObj []))).
  { cbn. do 2 apply list_elem_of_further. apply list_elem_of_here. }
  assert (Hf : own "sourceMap" (get "options" (step false)) = Some (VBool false))
    by reflexivity.
  assert (Ht : own "sourceMap" (get "options" (step true)) = Some (VBool true))
    by reflexivity.
  pose proof (sourceMap_follows_mode bare_host (VObj [])) as [P D].
  split.
  - split; [exact Hp|]. split; [exact Hf|].
    exact (proj2 (proj2 (proj2 (proj2 P))) (step false) _ Hp Hf).
  - split; [exact Hd|]. split; [exact Ht|].
    exact (proj2 (proj2 (proj2 (proj2 D))) (step true) _ Hd Ht).
Defined.

(** ** The dev-server block and the process environment *)

Lemma env_var_absent (h : Host) (name : string) :
  process_env h !! name = None → env_var h name = VUndefined.
Proof. unfold env_var. by intros ->. Qed.

Lemma env_var_present (h : Host) (name s : string) :
  process_env h !! name = Some s → env_var h name = VStr s.
Proof. unfold env_var. by intros ->. Qed.

(** X9: for an [env] other than 'production', a [WDS_HOST] and a
    [WDS_PORT] set in the process environment reach [devServer.host] and
    [devServer.port] as the very strings they hold; the port is not turned
    into a number. *)
Lemma devServer_with_env (h : Host) (argv env : value) (host port : string) :
  env ≠ VStr "production" →
  process_env h !! "WDS_HOST" = Some host →
  process_env h !! "WDS_PORT" = Some port →
  select [Key "devServer"; Key "host"] (module_exports h env argv)
    = Some (VStr host) ∧
  select [Key "devServer"; Key "port"] (module_exports h env argv)
    = Some (VStr port).
Proof.
  intros Hne%isProduction_false Hhost Hport. cbn. rewrite Hne. cbn.
  unfold WDS_HOST, WDS_PORT.
  by rewrite (env_var_present _ _ _ Hhost), (env_var_present _ _ _ Hport).
Qed.

Example devServer_lan_host :
  get "devServer" (module_exports lan_host (VStr "development") (VObj []))
  = VObj [("host", VStr "0.0.0.0");
          ("port", VStr "3000");
          ("open", VBool false);
          ("historyApiFallback", VBool true);
          ("overlay", VBool true);
          ("contentBase", VStr "/app/dist")].
Proof. reflexivity. Qed.

Example output_bare_host :
  get "output" (module_exports bare_host (VStr "production") (VObj []))
  = VObj [("filename", VStr "bundle.js"); ("path", VStr "/app/dist")].
Proof. reflexivity. Qed.

(** C4: when [WDS_HOST] and [WDS_PORT] are not set in the process
    environment, the export applied to 'development' still returns a
    configuration (it is a total function: no step of it can throw), whose
    [devServer] block has [host] and [port] present with value [undefined]
    and [open] equal to [false]. *)
Theorem devServer_without_env (h : Host) (argv : value) :
  process_env h !! "WDS_HOST" = None →
  process_env h !! "WDS_PORT" = None →
  ∃ cfg ds,
    module_exports h (VStr "development") argv = cfg ∧
    own "devServer" cfg = Some ds ∧
    own "host" ds = Some VUndefined ∧
    own "port" ds = Some VUndefined ∧
    own "open" ds = Some (VBool false).
Proof.
  intros Hhost Hport. eexists _, (devServer h).
  split; [reflexivity|]. split; [reflexivity|].
  cbn. unfold WDS_HOST, WDS_PORT.
  by rewrite (env_var_absent _ _ Hhost), (env_var_absent _ _ Hport).
Qed.

Lemma devServer_without_env_witness :
  process_env bare_host !! "WDS_HOST" = None ∧
  process_env bare_host !! "WDS_PORT" = None ∧
  ∃ cfg ds,
    module_exports bare_host (VStr "development") (VObj []) = cfg ∧
    own "devServer" cfg = Some ds ∧
    own "host" ds = Some VUndefined ∧
    own "port" ds = Some VUndefined ∧
    own "open" ds = Some (VBool false).
Proof.
  split; [reflexivity|]. split; [reflexivity|].
  apply (devServer_without_env bare_host (VObj [])); reflexivity.
Defined.

(** ** Modes other than 'production' *)

(** Everything the export selects by [isProduction] depends on [env] only
    through that predicate. *)
Lemma selections_by_isProduction (h : Host) (env env' argv argv' : value) :
  isProduction env = isProduction env' →
  webpackModule h env = webpackModule h env' ∧
  own "optimization" (module_exports h env argv)
    = own "optimization" (module_exports h env' argv') ∧
  own "devServer" (module_exports h env argv)
    = own "devServer" (module_exports h env' argv') ∧
  own "devtool" (module_exports h env argv)
    = own "devtool" (module_exports h env' argv').
Proof.
  intros E. unfold webpackModule. cbn. by rewrite E.
Qed.

(** C5: for every [env] other than the string 'production' (for instance
    'staging'), each selection of the returned configuration equals the one
    made for 'development': the head of the CSS loader chain, the source-map
    options, the whole [module] block, the [optimization] block, the
    [devServer] block and [devtool]. *)
Theorem other_modes_as_development (h : Host) (env argv : value) :
  env ≠ VStr "production" →
  let cfg := module_exports h env argv in
  let dev := module_exports h (VStr "development") argv in
  select (css_chain ++ [Idx 0; Key "loader"]) cfg
    = select (css_chain ++ [Idx 0; Key "loader"]) dev ∧
  sourceMap_options cfg = sourceMap_options dev ∧
  own "module" cfg = own "module" dev ∧
  own "optimization" cfg = own "optimization" dev ∧
  own "devServer" cfg = own "devServer" dev ∧
  own "devtool" cfg = own "devtool" dev.
Proof.
  intros Hne%isProduction_false cfg dev. subst cfg dev.
  assert (E : isProduction env = isProduction (VStr "development"))
    by (by rewrite Hne).
  destruct (selections_by_isProduction h env (VStr "development") argv argv E)
    as (Hm & Ho & Hd & Ht).
  split; [cbn; by rewrite Hne|].
  split; [by rewrite !sourceMap_options_module_exports, E|].
  split; [cbn; by rewrite Hm|].
  done.
Qed.

Lemma other_modes_as_development_witness :
  VStr "staging" ≠ VStr "production" ∧
  let cfg := module_exports bare_host (VStr "staging") (VObj []) in
  let dev := module_exports bare_host (VStr "development") (VObj []) in
  select (css_chain ++ [Idx 0; Key "loader"]) cfg
    = select (css_chain ++ [Idx 0; Key "loader"]) dev ∧
  sourceMap_options cfg = sourceMap_options dev ∧
  own "module" cfg = own "module" dev ∧
  own "optimization" cfg = own "optimization" dev ∧
  own "devServer" cfg = own "devServer" dev ∧
  own "devtool" cfg = own "devtool" dev.
Proof.
  assert (Hne : VStr "staging" ≠ VStr "production") by (intros [=]).
  split; [exact Hne|].
  exact (other_modes_as_development bare_host (VStr "staging") (VObj []) Hne).
Defined.

(** ** The optimization and devServer blocks *)

(** C6: for every [env], exactly one of the [optimization] and [devServer]
    blocks of the returned configuration is populated; for 'production' the
    [optimization] block is non-empty and [devServer] is the empty object,
    for 'development' [optimization] is the empty object and [devServer] is
    populated. *)
Theorem one_block_populated (h : Host) (env argv : value) :
  let block k e := get k (module_exports h e argv) in
  xorb (populated (block "optimization" env))
       (populated (block "devServer" env)) = true ∧
  (populated (block "optimization" (VStr "production")) = true ∧
   block "devServer" (VStr "production") = VObj []) ∧
  (block "optimization" (VStr "development") = VObj [] ∧
   populated (block "devServer" (VStr "development")) = true).
Proof.
  cbn. split; [|done]. by destruct (isProduction env).
Qed.

(** ** The plugin list *)

Lemma plugins_of_module_exports (h : Host) (env argv : value) :
  own "plugins" (module_exports h env argv) = Some (plugins h).
Proof. reflexivity. Qed.

Lemma plugin_classes_module_exports (h : Host) (env argv : value) :
  plugin_classes (module_exports h env argv)
  = [Some HtmlWebpackPlugin; Some MiniCssExtractPlugin; Some PurgecssPlugin].
Proof. reflexivity. Qed.

(** C7: for every [env], the [plugins] array of the returned configuration
    holds a [MiniCssExtractPlugin] instance at an earlier index than a
    [PurgecssPlugin] instance, and every instance of the former precedes
    every instance of the latter. *)
Theorem extraction_before_purge (h : Host) (env argv : value) :
  let ps := elements (get "plugins" (module_exports h env argv)) in
  (∃ i j p q,
     ps !! i = Some p ∧ instanceof p MiniCssExtractPlugin = true ∧
     ps !! j = Some q ∧ instanceof q PurgecssPlugin = true ∧
     i < j) ∧
  (∀ i j p q,
     ps !! i = Some p → instanceof p MiniCssExtractPlugin = true →
     ps !! j = Some q → instanceof q PurgecssPlugin = true →
     i < j).
Proof.
  cbn. split.
  - eexists 1, 2, _, _. repeat split; lia.
  - intros i j p q Hi Hp Hj Hq.
    destruct i as [|[|[|i]]]; simplify_eq/=;
      destruct j as [|[|[|j]]]; simplify_eq/=; lia.
Qed.

Lemma extraction_before_purge_witness :
  let ps := elements (get "plugins"
              (module_exports bare_host (VStr "development") (VObj []))) in
  let p := VNew MiniCssExtractPlugin [VObj [("filename", VStr "[name].css")]] in
  let q := VNew PurgecssPlugin
             [VObj [("paths", VArr [VStr "/app/src/index.js";
                                    VStr "/app/src/templates/index.html"])]] in
  ps !! 1 = Some p ∧ ps !! 2 = Some q ∧ 1 < 2.
Proof.
  intros ps p q.
  assert (Hp : ps !! 1 = Some p) by reflexivity.
  assert (Hq : ps !! 2 = Some q) by reflexivity.
  split; [exact Hp|]. split; [exact Hq|].
  exact (proj2 (extraction_before_purge bare_host (VStr "development") (VObj []))
               1 2 p q Hp eq_refl Hq eq_refl).
Defined.

(** ** The devtool value *)

(** C8: [devtool] is [false] for 'production' and the string
    'cheal-module-eval-source-map' for every other [env], 'development'
    included; that string is a misspelling, none of the documented option
    names. *)
Theorem devtool_value (h : Host) (env argv : value) :
  own "devtool" (module_exports h (VStr "production") argv) = Some (VBool false) ∧
  (env ≠ VStr "production" →
   own "devtool" (module_exports h env argv)
     = Some (VStr "cheal-module-eval-source-map")) ∧
  own "devtool" (module_exports h (VStr "development") argv)
    = Some (VStr "cheal-module-eval-source-map") ∧
  "cheal-module-eval-source-map" ∉ documented_devtool_values.
Proof.
  split; [reflexivity|]. split.
  - intros Hne%isProduction_false. cbn. by rewrite Hne.
  - split; [reflexivity|]. unfold documented_devtool_values.
    rewrite !not_elem_of_cons. repeat split; try discriminate.
    apply not_elem_of_nil.
Qed.

Lemma devtool_value_witness :
  VStr "staging" ≠ VStr "production" ∧
  own "devtool" (module_exports bare_host (VStr "staging") (VObj []))
    = Some (VStr "cheal-module-eval-source-map").
Proof.
  assert (Hne : VStr "staging" ≠ VStr "production") by (intros [=]).
  split; [exact Hne|].
  exact (proj1 (proj2 (devtool_value bare_host (VStr "staging") (VObj []))) Hne).
Defined.

(** ** The argv argument *)

(** C9: with the host (and so the process environment) and [env] fixed,
    the export returns the same configuration for any two [argv]. *)
Theorem argv_ignored (h : Host) (env argv1 argv2 : value) :
  module_exports h env argv1 = module_exports h env argv2.
Proof. reflexivity. Qed.

(** ** The mode field and the plugins in every mode *)

(** C10, as first stated, has the CSS minimizer present in development.
    In the configuration returned for 'development', neither the [plugins]
    array nor the [optimization] block holds the CSS minimizer
    ([OptimizeCSSAssetsPlugin]): the array has no instance of it and the
    block has no [minimizer] property. *)
Lemma css_minimizer_absent_in_development :
  let cfg := module_exports bare_host (VStr "development") (VObj []) in
  has_instance OptimizeCSSAssetsPlugin (get "plugins" cfg) = false ∧
  own "minimizer" (get "optimization" cfg) = None.
Proof. split; reflexivity. Qed.

(** C10 (amended): for every [env], the [mode] field of the returned
    configuration is [env] itself (so 'staging' gives mode 'staging'); the
    [plugins] array is the same in every mode, the three instances of
    [HtmlWebpackPlugin], [MiniCssExtractPlugin] and [PurgecssPlugin] in that
    order, so the purge and the CSS-extraction plugins are present in
    'development' too; the CSS minimizer [OptimizeCSSAssetsPlugin] is not
    among them. *)
Theorem mode_verbatim_plugins_fixed (h : Host) (env argv : value) :
  let cfg := module_exports h env argv in
  let dev := module_exports h (VStr "development") argv in
  own "mode" cfg = Some env ∧
  own "mode" (module_exports h (VStr "staging") argv) = Some (VStr "staging") ∧
  own "plugins" cfg = own "plugins" dev ∧
  plugin_classes cfg
    = [Some HtmlWebpackPlugin; Some MiniCssExtractPlugin; Some PurgecssPlugin] ∧
  has_instance PurgecssPlugin (get "plugins" dev) = true ∧
  has_instance MiniCssExtractPlugin (get "plugins" dev) = true ∧
  has_instance OptimizeCSSAssetsPlugin (get "plugins" cfg) = false.
Proof. cbn. repeat split. Qed.

(** ** The patterns of the rules *)

(** The patterns above are the ones the configuration carries. *)
Lemma rule_patterns (h : Host) (env argv : value) :
  let rules := get "rules" (get "module" (module_exports h env argv)) in
  select [Idx 0; Key "test"] rules = Some (VRegExp (regex_source js_test)) ∧
  select [Idx 0; Key "exclude"] rules
    = Some (VArr [VRegExp (regex_source js_exclude)]) ∧
  select [Idx 1; Key "test"] rules
    = Some (VArr [VRegExp (regex_source css_test);
                  VRegExp (regex_source sass_test)]) ∧
  select [Idx 1; Key "exclude"] rules
    = Some (VArr [VRegExp (regex_source css_exclude)]).
Proof. cbn. repeat split. Qed.

Example js_test_accepts :
  regex_test js_test <$> ["src/index.js"; "App.jsx"; "lib/esm.mjs"; "a.mjsx"]
  = [true; true; true; true].
Proof. reflexivity. Qed.

Example js_test_rejects :
  regex_test js_test <$> [""; "js"; "index.js.map"; "data.json"; "index.JS"; "a.cjs"; "a.msjs"]
  = [false; false; false; false; false; false; false].
Proof. reflexivity. Qed.

Example css_tests :
  (λ s, (regex_test css_test s, regex_test sass_test s))
    <$> ["main.css"; "main.scss"; "main.sass"; "main.less"; "css"; "a.css.map"]
  = [(true, false); (true, false); (false, true); (false, false);
     (false, false); (false, false)].
Proof. reflexivity. Qed.

(** ** What the patterns accept *)

Lemma tails_spec (s t : string) : t ∈ tails s ↔ ∃ pre, s = pre ++ t.
Proof.
  induction s as [|c s IH]; cbn.
  - rewrite list_elem_of_singleton. split.
    + intros ->. by exists "".
    + intros [pre E]. destruct pre; [done|discriminate].
  - rewrite elem_of_cons, IH. split.
    + intros [->|[pre ->]]; [by exists ""|by exists (String c pre)].
    + intros [[|c' pre] E]; cbn in E; [by left|].
      injection E as -> ->. right. by exists pre.
Qed.

(** Two suffixes of one string: one is a suffix of the other. *)
Lemma tails_comparable (s t1 t2 : string) :
  t1 ∈ tails s → t2 ∈ tails s → t1 ∈ tails t2 ∨ t2 ∈ tails t1.
Proof.
  induction s as [|c s IH]; cbn; rewrite !elem_of_cons.
  - intros [->|H1] [->|H2]; [|by apply elem_of_nil in H2
                              |by apply elem_of_nil in H1..].
    left. apply list_elem_of_here.
  - intros [->|H1] [->|H2].
    + left. apply list_elem_of_here.
    + right. by apply list_elem_of_further.
    + left. by apply list_elem_of_further.
    + by apply IH.
Qed.

Lemma regex_test_tails (r : regex) (s : string) :
  regex_test r s = true ↔ ∃ t, t ∈ tails s ∧ matches_at_start r t = true.
Proof.
  unfold regex_test. rewrite existsb_exists.
  by setoid_rewrite list_elem_of_In.
Qed.

Lemma regex_test_spec (r : regex) (s : string) :
  regex_test r s = true ↔ ∃ pre t, s = pre ++ t ∧ matches_at_start r t = true.
Proof.
  rewrite regex_test_tails. setoid_rewrite tails_spec. split.
  - intros (t & [pre ->] & Ht). eauto.
  - intros (pre & t & -> & Ht). eauto.
Qed.

#[local] Arguments Ascii.eqb : simpl never.

(** Case analysis on the input a matcher run inspects, one character at a
    time. *)
Ltac split_input :=
  repeat match goal with
  | H : context [match ?t with EmptyString => _ | String _ _ => _ end] |- _ =>
      is_var t; destruct t; cbn in H; try discriminate H
  | H : context [Ascii.eqb ?a ?b] |- _ =>
      destruct (Ascii.eqb_spec a b); [subst|]; cbn in H; try discriminate H
  end.

(** Membership in a list written out: the cases of a hypothesis, and a goal
    on closed terms. *)
Ltac cases_in H :=
  repeat (apply elem_of_cons in H as [H|H]; [try subst|]);
  [..|by apply elem_of_nil in H].

Ltac solve_in :=
  solve [repeat first [apply list_elem_of_here | apply list_elem_of_further]].

Lemma js_test_at_start (t : string) :
  matches_at_start js_test t = true ↔ t ∈ [".js"; ".jsx"; ".mjs"; ".mjsx"].
Proof.
  split.
  - unfold matches_at_start, js_test. cbn. intros H. split_input; solve_in.
  - intros H. by cases_in H.
Qed.

Lemma css_test_at_start (t : string) :
  matches_at_start css_test t = true ↔ t ∈ [".css"; ".scss"].
Proof.
  split.
  - unfold matches_at_start, css_test. cbn. intros H. split_input; solve_in.
  - intros H. by cases_in H.
Qed.

Lemma sass_test_at_start (t : string) :
  matches_at_start sass_test t = true ↔ t = ".sass".
Proof.
  split.
  - unfold matches_at_start, sass_test. cbn. intros H. by split_input.
  - by intros ->.
Qed.

Lemma word_at_start (w t : string) :
  matches_at_start (word w) t = true ↔ ∃ post, t = w ++ post.
Proof.
  unfold matches_at_start. revert t.
  induction w as [|c w IH]; intros t; cbn.
  - split; [by exists t|done].
  - destruct t as [|c' t]; cbn.
    + split; [done|by intros [post ?]].
    + destruct (Ascii.eqb_spec c c') as [->|Hne]; cbn.
      * rewrite app_nil_r, IH. split; intros [post E]; exists post.
        -- by subst t.
        -- by injection E.
      * split; [done|]. intros [post E]. by injection E.
Qed.

(** X1: the pattern of the first rule, [/\.m?jsx?$/], accepts exactly the
    strings that end in [.js], [.jsx], [.mjs] or [.mjsx]. *)
Theorem js_test_extensions (s : string) :
  regex_test js_test s = true ↔
  ∃ stem ext, s = stem ++ ext ∧ ext ∈ [".js"; ".jsx"; ".mjs"; ".mjsx"].
Proof.
  rewrite regex_test_spec. by setoid_rewrite js_test_at_start.
Qed.

(** X2: a string is accepted by one of the two patterns of the second rule,
    [/\.s?css$/] and [/\.sass$/], exactly when it ends in [.css], [.scss] or
    [.sass]. *)
Theorem css_test_extensions (s : string) :
  regex_test css_test s || regex_test sass_test s = true ↔
  ∃ stem ext, s = stem ++ ext ∧ ext ∈ [".css"; ".scss"; ".sass"].
Proof.
  rewrite orb_true_iff, !regex_test_spec.
  setoid_rewrite css_test_at_start. setoid_rewrite sass_test_at_start.
  split.
  - intros [(pre & t & -> & H)|(pre & t & -> & ->)]; exists pre; eexists;
      (split; [done|]); [cases_in H|]; solve_in.
  - intros (pre & t & -> & H).
    cases_in H; [left|left|right]; exists pre; eexists;
      (split; [done|]); solve_in || done.
Qed.

(** X3: no string is accepted both by the pattern of the first rule and by a
    pattern of the second: the two rules never claim the same file. *)
Theorem js_and_css_tests_disjoint (s : string) :
  regex_test js_test s && (regex_test css_test s || regex_test sass_test s)
  = false.
Proof.
  apply not_true_is_false.
  rewrite andb_true_iff, orb_true_iff, !regex_test_tails.
  intros [(e1 & T1 & H1%js_test_at_start)
          [(e2 & T2 & H2%css_test_at_start)|(e2 & T2 & ->%sass_test_at_start)]].
  - destruct (tails_comparable s e1 e2 T1 T2) as [T|T];
      cases_in H1; cases_in H2; cbn in T; cases_in T; discriminate.
  - destruct (tails_comparable s e1 _ T1 T2) as [T|T];
      cases_in H1; cbn in T; cases_in T; discriminate.
Qed.

(** X4: the two [exclude] patterns, [/(node_modules)/] and [/node_modules/],
    accept the same strings: those that contain [node_modules]. *)
Theorem exclude_patterns (s : string) :
  regex_test js_exclude s = regex_test css_exclude s ∧
  (regex_test css_exclude s = true ↔
   ∃ pre post, s = pre ++ "node_modules" ++ post).
Proof.
  split; [reflexivity|].
  rewrite regex_test_spec. unfold css_exclude.
  setoid_rewrite word_at_start. split.
  - intros (pre & t & -> & post & ->). eauto.
  - intros (pre & post & ->). eauto.
Qed.

Example exclude_accepts :
  regex_test js_exclude <$> ["/app/node_modules/react/index.js";
                             "node_modules"; "/app/src/index.js";
                             "/app/node-modules/x.js"; ""]
  = [true; true; false; false; false].
Proof. reflexivity. Qed.

(** ** The two shapes of the configuration *)

(** X5: apart from its [mode] field, the returned configuration takes one
    of two values only: for every [env], every property other than [mode]
    is that of the configuration for 'production' or, for all of them at
    once, that of the configuration for 'development'. *)
Theorem two_configurations (h : Host) (env argv : value) :
  ∃ ref,
    (ref = VStr "production" ∨ ref = VStr "development") ∧
    ∀ k, k ≠ "mode" →
         own k (module_exports h env argv) = own k (module_exports h ref argv).
Proof.
  destruct (isProduction env) eqn:E.
  - apply isProduction_true in E as ->.
    exists (VStr "production"). split; [by left|done].
  - exists (VStr "development"). split; [by right|].
    intros k Hk%String.eqb_neq.
    unfold module_exports, webpackModule. rewrite E.
    cbn [own assoc]. by rewrite Hk.
Qed.

(** X6: [entry], [output], [plugins] and the first (JavaScript) rule do not
    depend on the arguments: they are the same for any two calls, whatever
    [env] and [argv]; and there are two rules in every mode. *)
Theorem mode_independent_parts (h : Host) (env env' argv argv' : value) :
  let cfg := module_exports h env argv in
  let cfg' := module_exports h env' argv' in
  own "entry" cfg = own "entry" cfg' ∧
  own "output" cfg = own "output" cfg' ∧
  own "plugins" cfg = own "plugins" cfg' ∧
  select [Key "module"; Key "rules"; Idx 0] cfg
    = select [Key "module"; Key "rules"; Idx 0] cfg' ∧
  length (elements (get "rules" (get "module" cfg))) = 2.
Proof. cbn. repeat split. Qed.

(** X12: the [optimization] block is populated exactly when [env] is the
    string 'production', and the [devServer] block exactly when it is
    anything else. *)
Theorem blocks_by_env (h : Host) (env argv : value) :
  let cfg := module_exports h env argv in
  (populated (get "optimization" cfg) = true ↔ env = VStr "production") ∧
  (populated (get "devServer" cfg) = true ↔ env ≠ VStr "production").
Proof.
  cbn. rewrite <- isProduction_false, <- isProduction_true.
  by destruct (isProduction env).
Qed.

(** ** The configuration and the process environment *)

Lemma env_var_inj (h h' : Host) (name : string) :
  env_var h name = env_var h' name ↔
  process_env h !! name = process_env h' !! name.
Proof.
  unfold env_var. split.
  - destruct (process_env h !! name), (process_env h' !! name); congruence.
  - by intros ->.
Qed.

(** X7: the configuration for 'production' does not depend on the process
    environment: two hosts that differ in it alone give the same one. *)
Theorem production_ignores_environment
    (h : Host) (e e' : gmap string string) (argv : value) :
  module_exports (with_env h e) (VStr "production") argv
  = module_exports (with_env h e') (VStr "production") argv.
Proof. reflexivity. Qed.

(** X8: for an [env] other than 'production', two process environments
    give the same configuration exactly when they agree on [WDS_HOST] and
    on [WDS_PORT] (set to the same string, or both unset); no other
    variable is read. *)
Theorem environment_read_through_WDS
    (h : Host) (e e' : gmap string string) (env argv : value) :
  env ≠ VStr "production" →
  module_exports (with_env h e) env argv = module_exports (with_env h e') env argv
  ↔ e !! "WDS_HOST" = e' !! "WDS_HOST" ∧ e !! "WDS_PORT" = e' !! "WDS_PORT".
Proof.
  intros Hne%isProduction_false.
  unfold module_exports, devServer, WDS_HOST, WDS_PORT. rewrite Hne.
  split.
  - intros E. simplify_eq.
    split; by apply (env_var_inj (with_env h e) (with_env h e')).
  - intros [Hh Hp].
    apply (env_var_inj (with_env h e) (with_env h e')) in Hh, Hp.
    by rewrite Hh, Hp.
Qed.

Lemma environment_read_through_WDS_witness :
  VStr "development" ≠ VStr "production" ∧
  (module_exports (with_env bare_host ∅) (VStr "development") (VObj [])
   = module_exports (with_env bare_host {["HOME" := "/root"]})
                    (VStr "development") (VObj [])
   ↔ (∅ : gmap string string) !! "WDS_HOST"
       = ({["HOME" := "/root"]} : gmap string string) !! "WDS_HOST" ∧
     (∅ : gmap string string) !! "WDS_PORT"
       = ({["HOME" := "/root"]} : gmap string string) !! "WDS_PORT").
Proof.
  assert (Hne : VStr "development" ≠ VStr "production") by (intros [=]).
  split; [exact Hne|].
  exact (environment_read_through_WDS bare_host ∅ {["HOME" := "/root"]}
           (VStr "development") (VObj []) Hne).
Defined.

Lemma devServer_with_env_witness :
  VStr "development" ≠ VStr "production" ∧
  process_env lan_host !! "WDS_HOST" = Some "0.0.0.0" ∧
  process_env lan_host !! "WDS_PORT" = Some "3000" ∧
  select [Key "devServer"; Key "host"]
         (module_exports lan_host (VStr "development") (VObj []))
    = Some (VStr "0.0.0.0") ∧
  select [Key "devServer"; Key "port"]
         (module_exports lan_host (VStr "development") (VObj []))
    = Some (VStr "3000").
Proof.
  assert (Hne : VStr "development" ≠ VStr "production") by (intros [=]).
  assert (Hh : process_env lan_host !! "WDS_HOST" = Some "0.0.0.0")
    by reflexivity.
  assert (Hp : process_env lan_host !! "WDS_PORT" = Some "3000")
    by reflexivity.
  split; [exact Hne|]. split; [exact Hh|]. split; [exact Hp|].
  exact (devServer_with_env lan_host (VObj []) (VStr "development")
           "0.0.0.0" "3000" Hne Hh Hp).
Defined.

(** X10: for an [env] other than 'production', the directory the dev
    server serves, [devServer.contentBase], is the output directory
    [output.path]: both are the string [join(__dirname, 'dist')]. *)
Theorem contentBase_is_output_path (h : Host) (env argv : value) :
  env ≠ VStr "production" →
  select [Key "output"; Key "path"] (module_exports h env argv)
    = Some (VStr (join h [__dirname h; "dist"])) ∧
  select [Key "devServer"; Key "contentBase"] (module_exports h env argv)
    = Some (VStr (join h [__dirname h; "dist"])).
Proof.
  intros Hne%isProduction_false. cbn. rewrite Hne. by cbn.
Qed.

Lemma contentBase_is_output_path_witness :
  VStr "staging" ≠ VStr "production" ∧
  select [Key "output"; Key "path"]
         (module_exports bare_host (VStr "staging") (VObj []))
    = Some (VStr "/app/dist") ∧
  select [Key "devServer"; Key "contentBase"]
         (module_exports bare_host (VStr "staging") (VObj []))
    = Some (VStr "/app/dist").
Proof.
  assert (Hne : VStr "staging" ≠ VStr "production") by (intros [=]).
  split; [exact Hne|].
  exact (contentBase_is_output_path bare_host (VStr "staging") (VObj []) Hne).
Defined.

(** ** Loader steps without a source-map option *)

(** X11: in every mode the [babel-loader] step and the [postcss-loader]
    step have no [sourceMap] option, so that of the five loader steps
    exactly three carry one. *)
Theorem steps_without_sourceMap (h : Host) (env argv : value) :
  let cfg := module_exports h env argv in
  select [Key "module"; Key "rules"; Idx 0; Key "use"; Idx 0; Key "loader"] cfg
    = Some (VStr "babel-loader") ∧
  select [Key "module"; Key "rules"; Idx 0; Key "use"; Idx 0; Key "options"] cfg
    ≫= own "sourceMap" = None ∧
  select (css_chain ++ [Idx 2; Key "loader"]) cfg
    = Some (VStr "postcss-loader") ∧
  select (css_chain ++ [Idx 2; Key "options"]) cfg ≫= own "sourceMap" = None ∧
  length (loader_steps cfg) = 5 ∧
  length (sourceMap_options cfg) = 3.
Proof.
  cbn. do 5 (split; [reflexivity|]).
  by rewrite sourceMap_options_module_exports.
Qed.
